(** * Learn/Train.py: the episode-statistics callback and the training driver

    A shallow embedding of [src/Learn/Train.py].

    - [Py] holds the fragment of the Python runtime the script relies on:
      exceptions, a state/output/exception monad, subscripting of dicts and
      lists, the slice [xs[-10:]], [np.mean], and [try/except/finally].
    - [RewardDebugCallback] is the class of the same name (lines 18-40).
    - [Train] is the module-level driver code (lines 61-115).

    Numbers (rewards, lengths, means) are rationals: [np.mean] is the exact
    arithmetic mean, and a progress line carries the two means that the
    f-string of line 38 interpolates, before their decimal formatting. *)

From Stdlib Require Import Ascii QArith Lqa.
From stdpp Require Import gmap strings list.

Local Open Scope string_scope.
Local Open Scope list_scope.

(** ** The Python fragment *)

Module Py.

Inductive exn : Type :=
| KeyError (key : string)
| IndexError
| KeyboardInterrupt
| Exception (what : string).

Inductive outcome (A : Type) : Type :=
| Return (a : A)
| Raise (e : exn).
Arguments Return {A} a.
Arguments Raise {A} e.

Section Monad.
(** [S] is the mutable state a computation runs on, [E] the type of the
    effects it leaves behind, in order (printed lines, external calls). *)
Context {S E : Type}.

Definition M (A : Type) : Type := S -> outcome A * S * list E.

Definition ret {A} (a : A) : M A := fun s => (Return a, s, []).

Definition raise {A} (e : exn) : M A := fun s => (Raise e, s, []).

(** Sequencing: an exception in [m] skips [k]; the state reached and the
    effects produced so far are kept. *)
Definition bind {A B} (m : M A) (k : A -> M B) : M B :=
  fun s =>
    match m s with
    | (Return a, s1, o1) =>
        match k a s1 with
        | (r, s2, o2) => (r, s2, o1 ++ o2)
        end
    | (Raise e, s1, o1) => (Raise e, s1, o1)
    end.

Definition get : M S := fun s => (Return s, s, []).
Definition put (s : S) : M unit := fun _ => (Return tt, s, []).
Definition emit (e : E) : M unit := fun s => (Return tt, s, [e]).

(** [try: body / except <catches>: handler] *)
Definition try_except {A} (body : M A) (catches : exn -> bool)
    (handler : M A) : M A :=
  fun s =>
    match body s with
    | (Return a, s1, o1) => (Return a, s1, o1)
    | (Raise e, s1, o1) =>
        if catches e then
          match handler s1 with
          | (r, s2, o2) => (r, s2, o1 ++ o2)
          end
        else (Raise e, s1, o1)
    end.

(** [try: body / finally: final]: [final] runs on every exit path of
    [body]; an exception of [final] replaces the outcome of [body]. *)
Definition try_finally {A} (body : M A) (final : M unit) : M A :=
  fun s =>
    match body s with
    | (r, s1, o1) =>
        match final s1 with
        | (Return _, s2, o2) => (r, s2, o1 ++ o2)
        | (Raise e, s2, o2) => (Raise e, s2, o1 ++ o2)
        end
    end.
End Monad.

Arguments M : clear implicits.

(** [d[k]] on a dict with string keys. *)
Definition getitem {S E V} (d : gmap string V) (k : string) : M S E V :=
  match d !! k with
  | Some v => ret v
  | None => raise (KeyError k)
  end.

(** [l[i]] on a list, for an index [i >= 0]. *)
Definition index {S E V} (l : list V) (i : nat) : M S E V :=
  match l !! i with
  | Some v => ret v
  | None => raise IndexError
  end.

(** [k in d] *)
Definition contains {V} (k : string) (d : gmap string V) : bool :=
  bool_decide (is_Some (d !! k)).

(** [d.get(k, dflt)] *)
Definition dict_get {V} (d : gmap string V) (k : string) (dflt : V) : V :=
  default dflt (d !! k).

(** [xs[-n:]]: the last [n] entries, the whole list when it is shorter. *)
Definition slice_last {A} (n : nat) (xs : list A) : list A :=
  drop (length xs - n) xs.

Definition Qsum (xs : list Q) : Q := foldr Qplus 0%Q xs.

(** [np.mean(xs)] *)
Definition np_mean (xs : list Q) : Q :=
  (Qsum xs / inject_Z (Z.of_nat (length xs)))%Q.

End Py.

Import Py.

Declare Scope py_scope.
Delimit Scope py_scope with py.
Notation "'let*' x ':=' m 'in' k" := (bind m (fun x => k))
  (at level 10, x name, m at level 100, k at level 200) : py_scope.
Local Open Scope py_scope.

(** ** class RewardDebugCallback *)

Module RewardDebugCallback.

(** The 'episode' mapping of a step's metadata: field name to number
    ('r', 'l', 't', ...). *)
Abbreviation episode_info := (gmap string Q).
(** One environment's step metadata. *)
Abbreviation info := (gmap string episode_info).
(** [self.locals]: the training loop's local variables, of which the
    callback reads 'infos', one metadata mapping per environment. *)
Abbreviation locals := (gmap string (list info)).

(** The callback object: the two attributes set by [__init__]. *)
Record self : Type := Self {
  episode_rewards : list Q;
  episode_lengths : list Q
}.

(** The line of line 38, as the pair of means it interpolates. *)
Record line : Type := DebugLine {
  avg_reward : Q;
  avg_length : Q
}.

Definition __init__ : self :=
  {| episode_rewards := []; episode_lengths := [] |}.

Definition append_episode_rewards (x : Q) : M self line unit :=
  let* s := get in
  put {| episode_rewards := episode_rewards s ++ [x];
         episode_lengths := episode_lengths s |}.

Definition append_episode_lengths (x : Q) : M self line unit :=
  let* s := get in
  put {| episode_rewards := episode_rewards s;
         episode_lengths := episode_lengths s ++ [x] |}.

Definition print (l : line) : M self line unit := emit l.

Definition _on_step (locals : locals) : M self line bool :=
  let* info0 := index (dict_get locals "infos" [∅]) 0 in
  let* _ :=
    if contains "episode" info0 then
      let* infos := getitem locals "infos" in
      let* info0 := index infos 0 in
      let* episode_info := getitem info0 "episode" in
      let* episode_reward := getitem episode_info "r" in
      let* episode_length := getitem episode_info "l" in
      let* _ := append_episode_rewards episode_reward in
      let* _ := append_episode_lengths episode_length in
      let* s := get in
      if (length (episode_rewards s) mod 10 =? 0)%nat then
        let avg_reward := np_mean (slice_last 10 (episode_rewards s)) in
        let avg_length := np_mean (slice_last 10 (episode_lengths s)) in
        print (DebugLine avg_reward avg_length)
      else ret tt
    else ret tt in
  ret true.

(** The training loop notifies the callback once per step, in order; an
    exception of a notification ends the run. The result collects the
    signals returned. *)
Fixpoint on_steps (steps : list locals) : M self line (list bool) :=
  match steps with
  | [] => ret []
  | l :: rest =>
      let* b := _on_step l in
      let* bs := on_steps rest in
      ret (b :: bs)
  end.

(** *** Reading a notification

    [metadata0] is the entry that line 26 inspects; [outcome_of] is the
    episode outcome a notification carries, when its marker has both
    fields. *)

Definition metadata0 (l : locals) : option info :=
  dict_get l "infos" [∅] !! 0%nat.

Definition marker_of (l : locals) : option episode_info :=
  match metadata0 l with
  | Some i => i !! "episode"
  | None => None
  end.

Definition outcome_of (l : locals) : option (Q * Q) :=
  match marker_of l with
  | Some e =>
      match e !! "r", e !! "l" with
      | Some r, Some n => Some (r, n)
      | _, _ => None
      end
  | None => None
  end.

(** Index 0 exists, and a marker found there has both fields. *)
Definition well_formed (l : locals) : Prop :=
  exists i, metadata0 l = Some i /\
    forall e, i !! "episode" = Some e -> is_Some (e !! "r") /\ is_Some (e !! "l").

(** The outcomes carried by a run of notifications, in order. *)
Definition episodes (steps : list locals) : list (Q * Q) :=
  omap outcome_of steps.

Definition positive_multiple_of_10 (n : nat) : Prop :=
  (0 < n)%nat /\ (n mod 10 = 0)%nat.

(** A step whose metadata carries the marker [{'r': r, 'l': n}], and a step
    whose metadata carries none. *)
Definition episode_step (r n : Q) : locals :=
  {[ "infos" := [ {[ "episode" := {[ "r" := r; "l" := n ]} ]} ] ]}.

Definition quiet_step : locals := {[ "infos" := [ ∅ ] ]}.

(** The runs of the spec's examples: rewards 1, 2, ..., [k], each episode of
    length 10. *)
Definition counting_episodes (k : nat) : list locals :=
  map (fun j => episode_step (inject_Z (Z.of_nat j)) 10) (seq 1 k).

(** Two outcomes with two marker-less notifications in between, the second of
    them without an 'infos' key. *)
Definition interleaved_run : list locals :=
  [episode_step 4 12; quiet_step; ∅; episode_step (-1) 30].

Definition state_after {A} (r : outcome A * self * list line) : self := r.1.2.
Definition printed {A} (r : outcome A * self * list line) : list line := r.2.

(** The state after appending one outcome. *)
Definition appended (s : self) (r n : Q) : self :=
  {| episode_rewards := episode_rewards s ++ [r];
     episode_lengths := episode_lengths s ++ [n] |}.

(** What a notification does, by cases on the entry at index 0. *)
Definition on_step_cases (m : option info) (s : self)
    : outcome bool * self * list line :=
  match m with
  | None => (Raise IndexError, s, [])
  | Some i =>
      match i !! "episode" with
      | None => (Return true, s, [])
      | Some e =>
          match e !! "r" with
          | None => (Raise (KeyError "r"), s, [])
          | Some r =>
              match e !! "l" with
              | None => (Raise (KeyError "l"), s, [])
              | Some n =>
                  let s' := appended s r n in
                  (Return true, s',
                   if (length (episode_rewards s') mod 10 =? 0)%nat then
                     [DebugLine (np_mean (slice_last 10 (episode_rewards s')))
                                (np_mean (slice_last 10 (episode_lengths s')))]
                   else [])
              end
          end
      end
  end.

(** *** The output of a run

    [report_at rs ns j] is the line over entries [10j+1 .. 10j+10] of two
    histories, and [reports eps] has one such line per complete group of
    ten outcomes. *)

Definition report_at (rs ns : list Q) (j : nat) : line :=
  DebugLine (np_mean (take 10 (drop (10 * j) rs)))
            (np_mean (take 10 (drop (10 * j) ns))).

Definition reports (eps : list (Q * Q)) : list line :=
  map (report_at eps.*1 eps.*2) (seq 0 (length eps / 10)).

(** A marker with a further field ('t', the elapsed time), in metadata and
    locals that carry further keys, and a second environment's metadata. *)
Definition crowded_step (r n t : Q) : locals :=
  {[ "infos" := [ {[ "episode" := {[ "r" := r; "l" := n; "t" := t ]};
                     "TimeLimit.truncated" := ∅ ]};
                  {[ "episode" := ∅ ]} ];
     "dones" := [] ]}.


End RewardDebugCallback.

(** ** The driver: module-level code of Train.py

    The Unity environment and the PPO library are external: each call into
    them is recorded as an event and returns or raises as the [world] says.
    The observation and action spaces (lines 44-59) are constants handed to
    [gym.make] and are left out. *)

Module Train.

Definition UNITY_ENV_NAME : string := "deer".
Definition UNITY_BUILD_PATH : option string := None.
Definition RENDER_MODE : option string := None.

Definition DEBUG_REWARDS : bool := true.
Definition DEBUG_ACTIONS : bool := false.

(** [os.path.join] of a single component is that component. *)
Definition MODEL_PATH : string := "ppo_deeragentrl.zip".

Definition total_timesteps : Z := 200000.

(** The arguments of the [PPO(...)] constructor, lines 83-94. *)
Record hyperparameters : Type := Hyperparameters {
  policy : string;
  verbose : Z;
  n_steps : Z;
  batch_size : Z;
  learning_rate : Q;
  max_grad_norm : Q;
  ent_coef : Q;
  gamma : Q;
  gae_lambda : Q
}.

(** What the variable [model] is bound to. *)
Inductive model : Type :=
| Loaded (path : string)
| Fresh (hp : hyperparameters).

Inductive call : Type :=
| gym_make (env_name : string) (file_name render_mode : option string)
| DummyVecEnv
| PPO_load (path : string)
| PPO (hp : hyperparameters)
| learn (m : model) (total_timesteps : Z) (progress_bar : bool)
    (callback : option RewardDebugCallback.self)
| save (m : model) (path : string).

Inductive event : Type :=
| Called (c : call)
| Printed (text : string).

(** The outside of the script: which paths exist ([os.path.exists]) and
    which external calls raise. *)
Record world : Type := World {
  path_exists : string -> bool;
  raises : call -> option exn
}.

Definition print (text : string) : M unit event unit := emit (Printed text).

(** An external call is recorded when it is made, whether it then returns or
    raises. *)
Definition extern (w : world) (c : call) : M unit event unit :=
  let* _ := emit (Called c) in
  match raises w c with
  | Some e => raise e
  | None => ret tt
  end.

Definition new_model_hyperparameters : hyperparameters :=
  {| policy := "MultiInputPolicy";
     verbose := 1;
     n_steps := 2048;
     batch_size := 256;
     learning_rate := 1e-3;
     max_grad_norm := 1.0;
     ent_coef := 0.001;
     gamma := 0.9;
     gae_lambda := 0.95 |}.

(** Lines 61-94: build the environment, then load or create the model. *)
Definition startup (w : world) : M unit event model :=
  let* _ := extern w (gym_make UNITY_ENV_NAME UNITY_BUILD_PATH RENDER_MODE) in
  let* _ := extern w DummyVecEnv in
  if path_exists w MODEL_PATH then
    let* _ := print ("Загружаем существующую модель из " +:+ MODEL_PATH) in
    let* _ := extern w (PPO_load MODEL_PATH) in
    ret (Loaded MODEL_PATH)
  else
    let* _ := print "Создаём новую PPO модель" in
    let* _ := extern w (PPO new_model_hyperparameters) in
    ret (Fresh new_model_hyperparameters).

Definition is_KeyboardInterrupt (e : exn) : bool :=
  match e with
  | KeyboardInterrupt => true
  | _ => false
  end.

(** Lines 96-115: train, and save on the way out. *)
Definition training (w : world) (model : model) : M unit event unit :=
  let debug_callback :=
    if DEBUG_REWARDS then Some RewardDebugCallback.__init__ else None in
  let* _ := print "=== НАЧАЛО ОБУЧЕНИЯ ===" in
  let* _ := print "Целевые timesteps: 200000" in
  let* _ := print "ВАЖНО: Следите за логами Unity на предмет сообщений о еде!" in
  try_finally
    (try_except
       (extern w (learn model total_timesteps true debug_callback))
       is_KeyboardInterrupt
       (print (String "010"%char "=== Обнаружено прерывание (Ctrl+C), сохраняем модель... ===")))
    (let* _ := extern w (save model MODEL_PATH) in
     print ("=== Модель сохранена в " +:+ MODEL_PATH +:+ " ===")).

Definition main (w : world) : M unit event unit :=
  let* model := startup w in
  training w model.

(** The [save] calls of a trace, the [PPO.load] calls and the [PPO(...)]
    constructions, each in order. *)
Definition saves (tr : list event) : list (model * string) :=
  omap (fun e => match e with Called (save m p) => Some (m, p) | _ => None end) tr.

Definition loads (tr : list event) : list string :=
  omap (fun e => match e with Called (PPO_load p) => Some p | _ => None end) tr.

Definition constructions (tr : list event) : list hyperparameters :=
  omap (fun e => match e with Called (PPO hp) => Some hp | _ => None end) tr.

(** How a run of the script ended, and the events it left, in order. *)
Definition exit_status {A} (r : outcome A * unit * list event) : outcome A := r.1.1.
Definition trace {A} (r : outcome A * unit * list event) : list event := r.2.

(** A world where nothing raises and only the model file exists. *)
Definition calm_world : world :=
  {| path_exists := fun p => String.eqb p MODEL_PATH;
     raises := fun _ => None |}.

(** As [calm_world], but the operator interrupts the training. *)
Definition interrupted_world : world :=
  {| path_exists := fun p => String.eqb p MODEL_PATH;
     raises := fun c => match c with
                        | learn _ _ _ _ => Some KeyboardInterrupt
                        | _ => None
                        end |}.

(** The [learn] calls of a trace, with their arguments. *)
Definition learns (tr : list event)
    : list (model * Z * bool * option RewardDebugCallback.self) :=
  omap (fun e => match e with
                 | Called (learn m t p cb) => Some (m, t, p, cb)
                 | _ => None
                 end) tr.

(** The three lines printed before training (lines 101-103), the notice of
    line 112 and the message of line 115. *)
Definition banner : list event :=
  [Printed "=== НАЧАЛО ОБУЧЕНИЯ ===";
   Printed "Целевые timesteps: 200000";
   Printed "ВАЖНО: Следите за логами Unity на предмет сообщений о еде!"].

Definition interrupt_notice : string :=
  String "010"%char "=== Обнаружено прерывание (Ctrl+C), сохраняем модель... ===".

Definition saved_message : string :=
  "=== Модель сохранена в " +:+ MODEL_PATH +:+ " ===".

(** The model the startup binds when it returns. *)
Definition model_for (w : world) : model :=
  if path_exists w MODEL_PATH then Loaded MODEL_PATH
  else Fresh new_model_hyperparameters.

(** The file is absent and the Unity side cannot be reached. *)
Definition no_unity_world : world :=
  {| path_exists := fun _ => false;
     raises := fun c => match c with
                        | gym_make _ _ _ => Some (Exception "connection refused")
                        | _ => None
                        end |}.

(** The file is absent, training fails with an error of its own, and the
    save works. *)
Definition crashing_world : world :=
  {| path_exists := fun _ => false;
     raises := fun c => match c with
                        | learn _ _ _ _ => Some (KeyError "r")
                        | _ => None
                        end |}.

(** The file exists but cannot be loaded. *)
Definition corrupt_file_world : world :=
  {| path_exists := fun p => String.eqb p MODEL_PATH;
     raises := fun c => match c with
                        | PPO_load _ => Some (Exception "bad zip file")
                        | _ => None
                        end |}.

End Train.

(** * Properties of the statistics tracker *)

Import RewardDebugCallback.

Implicit Types (l : locals) (s : self) (i : info) (e : episode_info).

Lemma _on_step_cases l s : _on_step l s = on_step_cases (metadata0 l) s.
Proof.
  unfold _on_step, metadata0, dict_get.
  destruct (l !! "infos") as [infos|] eqn:Hinfos; simpl; [|reflexivity].
  unfold bind at 1. unfold index at 1.
  destruct (infos !! 0%nat) as [i|] eqn:Hi; simpl; [|reflexivity].
  unfold contains.
  destruct (i !! "episode") as [e|] eqn:He; simpl; [|reflexivity].
  unfold bind, getitem, index. rewrite Hinfos. simpl. rewrite Hi. simpl.
  rewrite He. simpl.
  destruct (e !! "r") as [r|]; simpl; [|reflexivity].
  destruct (e !! "l") as [n|]; simpl; [|reflexivity].
  destruct (_ =? 0)%nat; reflexivity.
Qed.

(** A notification that carries a complete marker appends it. *)
Lemma _on_step_outcome l s r n :
  outcome_of l = Some (r, n) ->
  _on_step l s =
    (Return true, appended s r n,
     if (length (episode_rewards (appended s r n)) mod 10 =? 0)%nat then
       [DebugLine (np_mean (slice_last 10 (episode_rewards (appended s r n))))
                  (np_mean (slice_last 10 (episode_lengths (appended s r n))))]
     else []).
Proof.
  rewrite _on_step_cases. unfold outcome_of, marker_of.
  destruct (metadata0 l) as [i|]; [|discriminate]. simpl.
  destruct (i !! "episode") as [e|]; [|discriminate].
  destruct (e !! "r") as [r'|]; [|discriminate].
  destruct (e !! "l") as [n'|]; [|discriminate].
  intros [= -> ->]. reflexivity.
Qed.

(** A well-formed notification without a marker does nothing. *)
Lemma _on_step_no_marker l s :
  well_formed l -> marker_of l = None -> _on_step l s = (Return true, s, []).
Proof.
  intros (i & Hi & _) Hm. rewrite _on_step_cases. unfold marker_of in Hm.
  rewrite Hi in *. simpl. rewrite Hm. reflexivity.
Qed.

Lemma well_formed_marker l e :
  well_formed l -> marker_of l = Some e -> exists r n, outcome_of l = Some (r, n).
Proof.
  intros (i & Hi & Hwf) Hm. unfold outcome_of. rewrite Hm.
  unfold marker_of in Hm. rewrite Hi in Hm.
  destruct (Hwf e Hm) as [[r ->] [n ->]]. eauto.
Qed.

(** What a returning notification did. *)
Lemma _on_step_returns l s b s' out :
  _on_step l s = (Return b, s', out) ->
  b = true /\
  ((outcome_of l = None /\ s' = s /\ out = []) \/
   (exists r n, outcome_of l = Some (r, n) /\ s' = appended s r n /\
      out = if (length (episode_rewards s') mod 10 =? 0)%nat then
              [DebugLine (np_mean (slice_last 10 (episode_rewards s')))
                         (np_mean (slice_last 10 (episode_lengths s')))]
            else [])).
Proof.
  rewrite _on_step_cases. unfold outcome_of, marker_of, on_step_cases.
  destruct (metadata0 l) as [i|]; [|discriminate].
  destruct (i !! "episode") as [e|].
  - destruct (e !! "r") as [r|]; [|discriminate].
    destruct (e !! "l") as [n|]; [|discriminate].
    intros [= <- <- <-]. split; [reflexivity|]. right. eauto.
  - intros [= <- <- <-]. auto.
Qed.

(** The two histories stay parallel across a notification, whatever its
    outcome. *)
Lemma _on_step_parallel l s :
  length (episode_rewards s) = length (episode_lengths s) ->
  length (episode_rewards (state_after (_on_step l s))) =
  length (episode_lengths (state_after (_on_step l s))).
Proof.
  intros Hs. rewrite _on_step_cases. unfold on_step_cases, state_after.
  destruct (metadata0 l) as [i|]; [|exact Hs].
  destruct (i !! "episode") as [e|]; [|exact Hs].
  destruct (e !! "r") as [r|]; [|exact Hs].
  destruct (e !! "l") as [n|]; [|exact Hs].
  simpl. rewrite !length_app, Hs. reflexivity.
Qed.

Lemma on_steps_cons l rest s :
  on_steps (l :: rest) s =
    match _on_step l s with
    | (Return b, s1, o1) =>
        match on_steps rest s1 with
        | (Return bs, s2, o2) => (Return (b :: bs), s2, o1 ++ o2)
        | (Raise e, s2, o2) => (Raise e, s2, o1 ++ o2)
        end
    | (Raise e, s1, o1) => (Raise e, s1, o1)
    end.
Proof.
  simpl. unfold bind at 1.
  destruct (_on_step l s) as [[[b|e] s1] o1]; [|reflexivity].
  unfold bind, ret.
  destruct (on_steps rest s1) as [[[bs|e] s2] o2]; [|reflexivity].
  rewrite app_nil_r. reflexivity.
Qed.

(** A returning run has appended exactly the outcomes it carried. *)
Lemma on_steps_returns steps : forall s0 bs s out,
  on_steps steps s0 = (Return bs, s, out) ->
  episode_rewards s = episode_rewards s0 ++ (episodes steps).*1 /\
  episode_lengths s = episode_lengths s0 ++ (episodes steps).*2.
Proof.
  induction steps as [|l rest IH]; intros s0 bs s out.
  - intros [= <- <- <-]. simpl. rewrite !app_nil_r. auto.
  - rewrite on_steps_cons.
    destruct (_on_step l s0) as [[[b|e] s1] o1] eqn:Hl; [|discriminate].
    destruct (on_steps rest s1) as [[[bs'|e] s2] o2] eqn:Hrest; [|discriminate].
    intros [= <- <- <-].
    destruct (IH _ _ _ _ Hrest) as [Hr Hn].
    destruct (_on_step_returns _ _ _ _ _ Hl) as [_ [(Ho & -> & _)|(r & n & Ho & -> & _)]];
      unfold episodes in *; simpl; rewrite Ho, Hr, Hn; simpl.
    + auto.
    + rewrite <- !app_assoc. auto.
Qed.

(** A run of well-formed notifications returns, with a continue-signal for
    each of them. *)
Lemma on_steps_total steps : forall s0,
  Forall well_formed steps ->
  exists s out, on_steps steps s0 = (Return (replicate (length steps) true), s, out).
Proof.
  induction steps as [|l rest IH]; intros s0 Hwf.
  - simpl. unfold ret. eauto.
  - apply Forall_cons in Hwf as [Hl Hrest]. rewrite on_steps_cons.
    assert (exists s1 o1, _on_step l s0 = (Return true, s1, o1)) as (s1 & o1 & ->).
    { destruct (marker_of l) as [e|] eqn:Hm.
      - destruct (well_formed_marker _ _ Hl Hm) as (r & n & Ho).
        rewrite (_on_step_outcome _ _ _ _ Ho). eauto.
      - rewrite (_on_step_no_marker _ _ Hl Hm). eauto. }
    destruct (IH s1 Hrest) as (s2 & o2 & ->). simpl. eauto.
Qed.

(** Among well-formed notifications, those with a marker are those that
    carry an outcome. *)
Lemma episodes_length steps :
  Forall well_formed steps ->
  length (episodes steps) = length (filter (fun l => is_Some (marker_of l)) steps).
Proof.
  induction 1 as [|l rest Hl _ IH]; [reflexivity|].
  unfold episodes in *. simpl. rewrite filter_cons.
  destruct (marker_of l) as [e|] eqn:Hm.
  - destruct (well_formed_marker _ _ Hl Hm) as (r & n & Ho). rewrite Ho.
    rewrite decide_True by eauto. simpl. f_equal. exact IH.
  - assert (outcome_of l = None) as -> by (unfold outcome_of; rewrite Hm; reflexivity).
    rewrite decide_False by (intros [? ?]; discriminate). exact IH.
Qed.

Lemma metadata0_singleton (infos : list info) :
  metadata0 {[ "infos" := infos ]} = infos !! 0%nat.
Proof. unfold metadata0, dict_get. rewrite lookup_singleton_eq. reflexivity. Qed.

Lemma metadata0_no_infos : metadata0 ∅ = Some ∅.
Proof. unfold metadata0, dict_get. rewrite lookup_empty. reflexivity. Qed.

Lemma episode_step_well_formed r n : well_formed (episode_step r n).
Proof.
  exists {[ "episode" := {[ "r" := r; "l" := n ]} ]}. split; [apply metadata0_singleton|].
  intros e He. rewrite lookup_singleton_eq in He. injection He as <-.
  rewrite lookup_insert_eq, lookup_insert_ne, lookup_singleton_eq by discriminate.
  split; eexists; reflexivity.
Qed.

Lemma quiet_step_well_formed : well_formed quiet_step.
Proof.
  exists ∅. split; [apply metadata0_singleton|].
  intros e He. rewrite lookup_empty in He. discriminate.
Qed.

Lemma no_infos_well_formed : well_formed ∅.
Proof.
  exists ∅. split; [apply metadata0_no_infos|].
  intros e He. rewrite lookup_empty in He. discriminate.
Qed.

(** C3: a notification whose step metadata (index 0 of the infos batch, or of
    the default batch when 'infos' is absent) has no 'episode' marker leaves
    both histories unchanged, prints nothing and returns True. *)
Theorem no_marker_leaves_tracker_unchanged l s i :
  metadata0 l = Some i ->
  i !! "episode" = None ->
  _on_step l s = (Return true, s, []).
Proof.
  intros Hi He. rewrite _on_step_cases, Hi. simpl. rewrite He. reflexivity.
Qed.

Lemma no_marker_leaves_tracker_unchanged_witness :
  _on_step {[ "infos" := [ {[ "TimeLimit.truncated" := ∅ ]} ] ]}
           {| episode_rewards := [3%Q]; episode_lengths := [7%Q] |}
  = (Return true, {| episode_rewards := [3%Q]; episode_lengths := [7%Q] |}, []).
Proof.
  apply (no_marker_leaves_tracker_unchanged _ _ {[ "TimeLimit.truncated" := ∅ ]}).
  - apply metadata0_singleton.
  - apply lookup_singleton_ne. discriminate.
Defined.

(** C5: on every well-formed input (index 0 exists, and a marker found there
    has both 'r' and 'l') the notification returns True, with or without a
    marker: the tracker never asks for training to stop. *)
Theorem well_formed_returns_continue l s :
  well_formed l ->
  exists s' out, _on_step l s = (Return true, s', out).
Proof.
  intros Hwf. destruct (marker_of l) as [e|] eqn:Hm.
  - destruct (well_formed_marker _ _ Hwf Hm) as (r & n & Ho).
    rewrite (_on_step_outcome _ _ _ _ Ho). eauto.
  - rewrite (_on_step_no_marker _ _ Hwf Hm). eauto.
Qed.

Lemma well_formed_returns_continue_witness :
  exists s' out, _on_step (episode_step 2 5) __init__ = (Return true, s', out).
Proof.
  apply well_formed_returns_continue, episode_step_well_formed.
Defined.

(** C8: only entry 0 of the infos batch is consulted. Two notifications whose
    infos lists agree at index 0 act identically on equal tracker states:
    same outcome (value returned or exception), same state, same output. *)
Theorem only_index0_is_consulted l1 l2 (infos1 infos2 : list info) s :
  l1 !! "infos" = Some infos1 ->
  l2 !! "infos" = Some infos2 ->
  infos1 !! 0%nat = infos2 !! 0%nat ->
  _on_step l1 s = _on_step l2 s.
Proof.
  intros H1 H2 H0. rewrite !_on_step_cases. unfold metadata0, dict_get.
  rewrite H1, H2. simpl. rewrite H0. reflexivity.
Qed.

Lemma only_index0_is_consulted_witness :
  _on_step {[ "infos" := [ {[ "episode" := {[ "r" := 1%Q; "l" := 4%Q ]} ]}; ∅ ] ]} __init__
  = _on_step {[ "infos" := [ {[ "episode" := {[ "r" := 1%Q; "l" := 4%Q ]} ]};
                              {[ "episode" := {[ "r" := 9%Q ]} ]}; ∅ ];
                "dones" := [] ]} __init__.
Proof.
  apply (only_index0_is_consulted _ _
           [ {[ "episode" := {[ "r" := 1%Q; "l" := 4%Q ]} ]}; ∅ ]
           [ {[ "episode" := {[ "r" := 1%Q; "l" := 4%Q ]} ]};
             {[ "episode" := {[ "r" := 9%Q ]} ]}; ∅ ]).
  - apply lookup_singleton_eq.
  - apply lookup_insert_eq.
  - reflexivity.
Defined.

(** The histories stay parallel along a run, up to and including a
    notification that raises. *)
Lemma on_steps_parallel steps : forall s0,
  length (episode_rewards s0) = length (episode_lengths s0) ->
  length (episode_rewards (state_after (on_steps steps s0))) =
  length (episode_lengths (state_after (on_steps steps s0))).
Proof.
  induction steps as [|l rest IH]; intros s0 Hs0; [exact Hs0|].
  rewrite on_steps_cons. pose proof (_on_step_parallel l s0 Hs0) as Hl.
  destruct (_on_step l s0) as [[[b|e] s1] o1]; [|exact Hl].
  specialize (IH s1 Hl).
  destruct (on_steps rest s1) as [[[bs|e] s2] o2]; exact IH.
Qed.

(** C9: when the marker at index 0 lacks 'r' or 'l', the notification raises
    a KeyError before any append: histories (and output) are as before. And
    whatever a notification's outcome, histories of equal length before it
    have equal length after it; so they have equal length after every call
    of a run from a fresh tracker. *)
Theorem missing_field_raises_before_append l s steps :
  (forall i e,
     metadata0 l = Some i -> i !! "episode" = Some e ->
     e !! "r" = None \/ e !! "l" = None ->
     exists k, (k = "r" \/ k = "l") /\ _on_step l s = (Raise (KeyError k), s, [])) /\
  (length (episode_rewards s) = length (episode_lengths s) ->
   length (episode_rewards (state_after (_on_step l s))) =
   length (episode_lengths (state_after (_on_step l s)))) /\
  length (episode_rewards (state_after (on_steps steps __init__))) =
  length (episode_lengths (state_after (on_steps steps __init__))).
Proof.
  split; [|split; [apply _on_step_parallel|apply on_steps_parallel; reflexivity]].
  intros i e Hi He Hmiss. rewrite _on_step_cases, Hi. simpl. rewrite He.
  destruct (e !! "r") as [r|] eqn:Hr.
  - destruct Hmiss as [?| ->]; [discriminate|]. exists "l". auto.
  - exists "r". auto.
Qed.

Lemma missing_field_raises_before_append_witness :
  exists k, (k = "r" \/ k = "l") /\
    _on_step {[ "infos" := [ {[ "episode" := {[ "r" := 1%Q ]} ]} ] ]}
             {| episode_rewards := [3%Q]; episode_lengths := [7%Q] |}
    = (Raise (KeyError k), {| episode_rewards := [3%Q]; episode_lengths := [7%Q] |}, []).
Proof.
  apply (proj1 (missing_field_raises_before_append _ _ [])
           {[ "episode" := {[ "r" := 1%Q ]} ]} {[ "r" := 1%Q ]}).
  - apply metadata0_singleton.
  - apply lookup_singleton_eq.
  - right. apply lookup_singleton_ne. discriminate.
Defined.

(** C10: without an 'infos' key the default batch [[{}]] is used and the
    notification is a no-marker step (no state change, no output, True);
    with 'infos' present but empty it raises IndexError. *)
Theorem missing_infos_defaults_empty_infos_raises l s :
  (l !! "infos" = None -> _on_step l s = (Return true, s, [])) /\
  (l !! "infos" = Some [] -> _on_step l s = (Raise IndexError, s, [])).
Proof.
  split; intros Hl; rewrite _on_step_cases; unfold metadata0, dict_get;
    rewrite Hl; reflexivity.
Qed.

Lemma missing_infos_defaults_empty_infos_raises_witness :
  _on_step ∅ __init__ = (Return true, __init__, []) /\
  _on_step {[ "infos" := [] ]} __init__ = (Raise IndexError, __init__, []).
Proof.
  split.
  - apply (proj1 (missing_infos_defaults_empty_infos_raises _ _)).
    apply lookup_empty.
  - apply (proj2 (missing_infos_defaults_empty_infos_raises _ _)).
    apply lookup_singleton_eq.
Defined.

(** C4: a run of well-formed notifications from a fresh tracker returns, and
    if exactly [N] of them carry a marker (any number of others interleaved)
    both histories have length [N] and hold the markers' 'r' and 'l' values
    in the order received. *)
Theorem histories_record_markers_in_order steps N :
  Forall well_formed steps ->
  length (filter (fun l => is_Some (marker_of l)) steps) = N ->
  exists s out,
    on_steps steps __init__ = (Return (replicate (length steps) true), s, out) /\
    length (episode_rewards s) = N /\
    length (episode_lengths s) = N /\
    episode_rewards s = (episodes steps).*1 /\
    episode_lengths s = (episodes steps).*2.
Proof.
  intros Hwf HN.
  destruct (on_steps_total steps __init__ Hwf) as (s & out & Hrun).
  destruct (on_steps_returns _ _ _ _ _ Hrun) as [Hr Hn]. simpl in Hr, Hn.
  exists s, out. rewrite Hr, Hn, !length_fmap, episodes_length, HN by assumption.
  auto.
Qed.

Lemma histories_record_markers_in_order_witness :
  exists s out,
    on_steps interleaved_run __init__
      = (Return (replicate (length interleaved_run) true), s, out) /\
    length (episode_rewards s) = 2%nat /\
    length (episode_lengths s) = 2%nat /\
    episode_rewards s = (episodes interleaved_run).*1 /\
    episode_lengths s = (episodes interleaved_run).*2.
Proof.
  apply histories_record_markers_in_order.
  - repeat apply Forall_cons_2; [| | | |apply Forall_nil_2].
    + apply episode_step_well_formed.
    + apply quiet_step_well_formed.
    + apply no_infos_well_formed.
    + apply episode_step_well_formed.
  - vm_compute. reflexivity.
Defined.

Example interleaved_run_episodes :
  episodes interleaved_run = [(4%Q, 12%Q); ((-1)%Q, 30%Q)].
Proof. vm_compute. reflexivity. Qed.

(** The last ten entries of a history of at least ten, and their mean. *)
Lemma np_mean_window (xs : list Q) :
  (10 <= length xs)%nat ->
  exists older last,
    xs = older ++ last /\ length last = 10%nat /\
    np_mean (slice_last 10 xs) = (Qsum last / 10)%Q.
Proof.
  intros Hlen. exists (take (length xs - 10) xs), (drop (length xs - 10) xs).
  assert (length (drop (length xs - 10) xs) = 10%nat) as Hlast
    by (rewrite length_drop; lia).
  split; [symmetry; apply take_drop|]. split; [exact Hlast|].
  unfold np_mean, slice_last. rewrite Hlast. reflexivity.
Qed.

Lemma multiple_of_10_ge (n : nat) : ((S n) mod 10 =? 0)%nat = true -> (10 <= S n)%nat.
Proof.
  intros H. apply Nat.eqb_eq in H.
  destruct (Nat.lt_ge_cases (S n) 10) as [Hlt|]; [|assumption].
  rewrite Nat.mod_small in H by assumption. discriminate.
Qed.

(** C1 (as amended): a notification prints a progress line exactly when it
    appended an episode outcome and the reward history then has a length
    that is a positive multiple of 10; it never prints more than one line.
    This holds for every notification on every tracker state, returning or
    raising. *)
Theorem progress_line_iff_tenth_append l s :
  ((exists ln, printed (_on_step l s) = [ln]) <->
   (exists x, episode_rewards (state_after (_on_step l s)) = episode_rewards s ++ [x]) /\
   positive_multiple_of_10 (length (episode_rewards (state_after (_on_step l s))))) /\
  (length (printed (_on_step l s)) <= 1)%nat.
Proof.
  assert (forall x, episode_rewards s <> episode_rewards s ++ [x]) as Hne.
  { intros x H. apply (f_equal length) in H. rewrite length_app in H. simpl in H. lia. }
  assert ((exists ln : line, @nil line = [ln]) <->
          (exists x, episode_rewards s = episode_rewards s ++ [x]) /\
          positive_multiple_of_10 (length (episode_rewards s))) as Hquiet.
  { split; [intros [ln [=]]|intros [[x Hx] _]; destruct (Hne x Hx)]. }
  rewrite _on_step_cases. unfold on_step_cases, printed, state_after.
  destruct (metadata0 l) as [i|]; [|simpl; auto].
  destruct (i !! "episode") as [e|]; [|simpl; auto].
  destruct (e !! "r") as [r|]; [|simpl; auto].
  destruct (e !! "l") as [n|]; [|simpl; auto].
  simpl. rewrite length_app. simpl. unfold positive_multiple_of_10.
  destruct (_ =? 0)%nat eqn:Htest; simpl; (split; [|lia]).
  - apply Nat.eqb_eq in Htest. split; [intros _|eauto].
    split; [eauto|]. split; [lia|assumption].
  - apply Nat.eqb_neq in Htest. split; [intros [ln [=]]|].
    intros [_ [_ Hmod]]. contradiction.
Qed.

(** C1 (as stated) fails: after the tenth outcome the reward history has
    length 10; a following notification without a marker leaves it at 10, a
    positive multiple of 10, and prints nothing. *)
Lemma progress_line_iff_length_fails_on_quiet_step :
  let s10 := state_after (on_steps (counting_episodes 10) __init__) in
  let r := _on_step quiet_step s10 in
  length (episode_rewards (state_after r)) = 10%nat /\
  printed r = [] /\
  ~ (printed r <> [] <->
     positive_multiple_of_10 (length (episode_rewards (state_after r)))).
Proof.
  intros s10 r.
  assert (length (episode_rewards (state_after r)) = 10%nat) as Hlen
    by (vm_compute; reflexivity).
  assert (printed r = []) as Hout by (vm_compute; reflexivity).
  split; [exact Hlen|]. split; [exact Hout|].
  rewrite Hlen, Hout. intros [_ H]. apply H; [|reflexivity].
  split; [lia|reflexivity].
Qed.

(** C2: in a run from a fresh tracker, a notification that prints reports
    [sum / 10] over the last ten entries of each history, the entries before
    them left out. In particular the 15th outcome prints nothing, and the
    20th prints the means of entries 11 to 20. *)
Theorem progress_line_reports_last_ten_means steps bs s out0 l b s' out :
  on_steps steps __init__ = (Return bs, s, out0) ->
  _on_step l s = (Return b, s', out) ->
  (out <> [] ->
   exists older_r last_r older_l last_l,
     episode_rewards s' = older_r ++ last_r /\ length last_r = 10%nat /\
     episode_lengths s' = older_l ++ last_l /\ length last_l = 10%nat /\
     out = [DebugLine (Qsum last_r / 10) (Qsum last_l / 10)]) /\
  (length (episodes steps) = 14%nat -> is_Some (outcome_of l) -> out = []) /\
  (length (episodes steps) = 19%nat -> is_Some (outcome_of l) ->
   exists first_r last_r first_l last_l,
     episode_rewards s' = first_r ++ last_r /\
     length first_r = 10%nat /\ length last_r = 10%nat /\
     episode_lengths s' = first_l ++ last_l /\
     length first_l = 10%nat /\ length last_l = 10%nat /\
     out = [DebugLine (Qsum last_r / 10) (Qsum last_l / 10)]).
Proof.
  intros Hrun Hstep.
  destruct (on_steps_returns _ _ _ _ _ Hrun) as [Hr Hn]. simpl in Hr, Hn.
  assert (length (episode_rewards s) = length (episodes steps)) as Hlr
    by (rewrite Hr; apply length_fmap).
  assert (length (episode_lengths s) = length (episodes steps)) as Hln
    by (rewrite Hn; apply length_fmap).
  destruct (_on_step_returns _ _ _ _ _ Hstep)
    as [_ [(Ho & -> & ->)|(r & n & Ho & -> & ->)]].
  { split; [intros H; destruct (H eq_refl)|].
    rewrite Ho. split; intros _ [? [=]]. }
  clear Hstep. simpl. rewrite length_app. simpl.
  replace (length (episode_rewards s) + 1)%nat
    with (S (length (episode_rewards s))) by lia.
  destruct (_ =? 0)%nat eqn:Htest.
  - apply multiple_of_10_ge in Htest as Hge.
    destruct (np_mean_window (episode_rewards s ++ [r])) as (or & lr & Her & Hlr10 & ->);
      [rewrite length_app; simpl; lia|].
    destruct (np_mean_window (episode_lengths s ++ [n])) as (on & ln & Hen & Hln10 & ->);
      [rewrite length_app; simpl; lia|].
    split; [intros _; exists or, lr, on, ln; auto|].
    split; [intros H14 _; rewrite Hlr, H14 in Htest; discriminate|].
    intros H19 _. exists or, lr, on, ln.
    apply (f_equal length) in Her as Hor. apply (f_equal length) in Hen as Hon.
    rewrite !length_app in Hor, Hon. simpl in Hor, Hon.
    repeat split; auto; lia.
  - split; [intros H; destruct (H eq_refl)|].
    split; [reflexivity|].
    intros H19 _. rewrite Hlr, H19 in Htest. discriminate.
Qed.

Lemma progress_line_reports_last_ten_means_witness :
  let s9 := state_after (on_steps (counting_episodes 9) __init__) in
  let r := _on_step (episode_step 10 10) s9 in
  exists older_r last_r older_l last_l,
    episode_rewards (state_after r) = older_r ++ last_r /\ length last_r = 10%nat /\
    episode_lengths (state_after r) = older_l ++ last_l /\ length last_l = 10%nat /\
    printed r = [DebugLine (Qsum last_r / 10) (Qsum last_l / 10)].
Proof.
  intros s9 r.
  refine (proj1 (progress_line_reports_last_ten_means
                   (counting_episodes 9) (replicate 9 true) s9 []
                   (episode_step 10 10) true (state_after r) (printed r) _ _) _).
  - vm_compute. reflexivity.
  - vm_compute. reflexivity.
  - vm_compute. discriminate.
Defined.

(** The spec's worked examples. Ten outcomes with rewards 1..10 and lengths
    10: one line, reward mean 5.5 and length mean 10. *)
Example ten_episodes_report :
  exists ln, printed (on_steps (counting_episodes 10) __init__) = [ln] /\
    (avg_reward ln == 5.5)%Q /\ (avg_length ln == 10)%Q.
Proof.
  exists (DebugLine (55 # 10) (100 # 10)).
  split; [vm_compute; reflexivity|]. split; reflexivity.
Qed.

(** Fifteen outcomes: still the one line of the tenth. *)
Example fifteen_episodes_report :
  printed (on_steps (counting_episodes 15) __init__) =
  printed (on_steps (counting_episodes 10) __init__).
Proof. vm_compute. reflexivity. Qed.

(** Twenty outcomes: a second line, whose reward mean is that of 11..20
    (15.5) and not that of 1..20 (10.5). *)
Example twenty_episodes_report :
  exists ln1 ln2, printed (on_steps (counting_episodes 20) __init__) = [ln1; ln2] /\
    (avg_reward ln2 == 15.5)%Q /\ ~ (avg_reward ln2 == 10.5)%Q.
Proof.
  exists (DebugLine (55 # 10) (100 # 10)), (DebugLine (155 # 10) (100 # 10)).
  split; [vm_compute; reflexivity|]. split; [reflexivity|discriminate].
Qed.


(** * Properties of the driver *)

(** ** Further properties of the tracker *)

(** X1: the histories only grow. Whatever a run of notifications does,
    return or raise, the histories it started from are prefixes of the
    histories it leaves: no entry is removed, reordered or rewritten. *)
Theorem histories_only_grow steps : forall s,
  episode_rewards s `prefix_of` episode_rewards (state_after (on_steps steps s)) /\
  episode_lengths s `prefix_of` episode_lengths (state_after (on_steps steps s)).
Proof.
  induction steps as [|l rest IH]; intros s; [split; reflexivity|].
  assert (episode_rewards s `prefix_of` episode_rewards (state_after (_on_step l s)) /\
          episode_lengths s `prefix_of` episode_lengths (state_after (_on_step l s)))
    as [Hr Hn].
  { rewrite _on_step_cases. unfold on_step_cases, state_after.
    destruct (metadata0 l) as [i|]; [|split; reflexivity].
    destruct (i !! "episode") as [e|]; [|split; reflexivity].
    destruct (e !! "r") as [r|]; [|split; reflexivity].
    destruct (e !! "l") as [n|]; [|split; reflexivity].
    simpl. split; apply prefix_app_r; reflexivity. }
  rewrite on_steps_cons. unfold state_after in *.
  destruct (_on_step l s) as [[[b|e] s1] o1]; simpl in *; [|auto].
  destruct (IH s1) as [Hr' Hn'].
  destruct (on_steps rest s1) as [[[bs|e] s2] o2]; simpl in *;
    split; etrans; eassumption.
Qed.

(** X2: a notification returns exactly when its input is well formed, and
    the value it returns is then True: there is no input on which the
    tracker returns False. *)
Theorem returns_iff_well_formed l s :
  ((exists b s' out, _on_step l s = (Return b, s', out)) <-> well_formed l) /\
  (forall b s' out, _on_step l s = (Return b, s', out) -> b = true).
Proof.
  split; [split|].
  - intros (b & s' & out & H). rewrite _on_step_cases in H. unfold on_step_cases in H.
    destruct (metadata0 l) as [i|] eqn:Hi; [|discriminate].
    exists i. split; [exact Hi|]. intros e He. rewrite He in H.
    destruct (e !! "r"); [|discriminate]. destruct (e !! "l"); [|discriminate].
    split; eexists; reflexivity.
  - intros Hwf. destruct (marker_of l) as [e|] eqn:Hm.
    + destruct (well_formed_marker _ _ Hwf Hm) as (r & n & Ho).
      rewrite (_on_step_outcome _ _ _ _ Ho). eauto.
    + rewrite (_on_step_no_marker _ _ Hwf Hm). eauto.
  - intros b s' out H. apply (_on_step_returns _ _ _ _ _ H).
Qed.

(** X3: the KeyError of an incomplete marker names the first missing field
    in the order the fields are read: 'r' whenever 'r' is missing, also when
    'l' is missing too, and 'l' only when 'r' is present. *)
Theorem missing_field_error_names_first_missing l s i e :
  metadata0 l = Some i ->
  i !! "episode" = Some e ->
  (e !! "r" = None -> _on_step l s = (Raise (KeyError "r"), s, [])) /\
  (is_Some (e !! "r") -> e !! "l" = None ->
   _on_step l s = (Raise (KeyError "l"), s, [])).
Proof.
  intros Hi He. rewrite _on_step_cases, Hi. simpl. rewrite He.
  split.
  - intros ->. reflexivity.
  - intros [r ->] ->. reflexivity.
Qed.

Lemma missing_field_error_names_first_missing_witness :
  _on_step {[ "infos" := [ {[ "episode" := ∅ ]} ] ]} __init__
  = (Raise (KeyError "r"), __init__, []).
Proof.
  apply (proj1 (missing_field_error_names_first_missing
                  {[ "infos" := [ {[ "episode" := ∅ ]} ] ]} __init__
                  {[ "episode" := ∅ ]} ∅
                  (metadata0_singleton _) (lookup_singleton_eq _ _))).
  apply lookup_empty.
Defined.

Lemma outcome_of_no_marker l : marker_of l = None -> outcome_of l = None.
Proof. unfold outcome_of. intros ->. reflexivity. Qed.

Lemma crowded_step_well_formed r n t : well_formed (crowded_step r n t).
Proof.
  unfold crowded_step.
  exists {[ "episode" := {[ "r" := r; "l" := n; "t" := t ]};
            "TimeLimit.truncated" := ∅ ]}.
  split.
  - unfold metadata0, dict_get. rewrite lookup_insert_eq. reflexivity.
  - intros e He. rewrite lookup_insert_eq in He. injection He as <-.
    rewrite lookup_insert_eq, lookup_insert_ne, lookup_insert_eq by discriminate.
    split; eexists; reflexivity.
Qed.

(** X4: of a well-formed notification only the marker's 'r' and 'l' values
    are used. Two well-formed notifications that carry the same outcome (or
    both none) act identically, whatever else their markers, metadata and
    locals hold. *)
Theorem only_reward_and_length_are_read l1 l2 s :
  well_formed l1 -> well_formed l2 ->
  outcome_of l1 = outcome_of l2 ->
  _on_step l1 s = _on_step l2 s.
Proof.
  intros H1 H2 Heq.
  destruct (marker_of l1) as [e1|] eqn:Hm1; destruct (marker_of l2) as [e2|] eqn:Hm2.
  - destruct (well_formed_marker _ _ H1 Hm1) as (r & n & Ho1).
    rewrite (_on_step_outcome _ _ _ _ Ho1).
    rewrite Heq in Ho1. rewrite (_on_step_outcome _ _ _ _ Ho1). reflexivity.
  - destruct (well_formed_marker _ _ H1 Hm1) as (r & n & Ho1).
    rewrite (outcome_of_no_marker _ Hm2), Ho1 in Heq. discriminate.
  - destruct (well_formed_marker _ _ H2 Hm2) as (r & n & Ho2).
    rewrite (outcome_of_no_marker _ Hm1), Ho2 in Heq. discriminate.
  - rewrite (_on_step_no_marker _ _ H1 Hm1), (_on_step_no_marker _ _ H2 Hm2).
    reflexivity.
Qed.

Lemma only_reward_and_length_are_read_witness :
  _on_step (episode_step 1 4) __init__ = _on_step (crowded_step 1 4 99) __init__.
Proof.
  apply only_reward_and_length_are_read.
  - apply episode_step_well_formed.
  - apply crowded_step_well_formed.
  - vm_compute. reflexivity.
Defined.

(** A run in two parts. *)
Lemma on_steps_app steps1 steps2 : forall s,
  on_steps (steps1 ++ steps2) s =
    match on_steps steps1 s with
    | (Return bs1, s1, o1) =>
        match on_steps steps2 s1 with
        | (Return bs2, s2, o2) => (Return (bs1 ++ bs2), s2, o1 ++ o2)
        | (Raise e, s2, o2) => (Raise e, s2, o1 ++ o2)
        end
    | (Raise e, s1, o1) => (Raise e, s1, o1)
    end.
Proof.
  induction steps1 as [|l rest IH]; intros s.
  - simpl. unfold ret. destruct (on_steps steps2 s) as [[[bs2|e] s2] o2]; reflexivity.
  - rewrite <- app_comm_cons, !on_steps_cons.
    destruct (_on_step l s) as [[[b|e] s1] o1]; [|reflexivity].
    rewrite IH.
    destruct (on_steps rest s1) as [[[bs1|e] s2] o2]; [|reflexivity].
    destruct (on_steps steps2 s2) as [[[bs2|e] s3] o3]; rewrite app_assoc; reflexivity.
Qed.

Lemma on_steps_singleton l s :
  on_steps [l] s =
    match _on_step l s with
    | (Return b, s1, o1) => (Return [b], s1, o1)
    | (Raise e, s1, o1) => (Raise e, s1, o1)
    end.
Proof.
  rewrite on_steps_cons.
  destruct (_on_step l s) as [[[b|e] s1] o1]; [|reflexivity].
  simpl. unfold ret. rewrite app_nil_r. reflexivity.
Qed.

(** A complete group of ten is unchanged by later appends, and the last
    complete group is what [xs[-10:]] reads. *)
Lemma window_stable {A} (xs ys : list A) j :
  (10 * j + 10 <= length xs)%nat ->
  take 10 (drop (10 * j) (xs ++ ys)) = take 10 (drop (10 * j) xs).
Proof.
  intros H. rewrite drop_app_le by lia. apply take_app_le. rewrite length_drop. lia.
Qed.

Lemma window_last {A} (xs : list A) j :
  length xs = (10 * j + 10)%nat ->
  take 10 (drop (10 * j) xs) = slice_last 10 xs.
Proof.
  intros H. unfold slice_last. replace (length xs - 10)%nat with (10 * j)%nat by lia.
  apply take_ge. rewrite length_drop. lia.
Qed.

Lemma report_at_stable (eps : list (Q * Q)) x j :
  (10 * j + 10 <= length eps)%nat ->
  report_at (eps ++ [x]).*1 (eps ++ [x]).*2 j = report_at eps.*1 eps.*2 j.
Proof.
  intros H. unfold report_at. rewrite !fmap_app.
  rewrite !window_stable by (rewrite length_fmap; exact H). reflexivity.
Qed.

Lemma reports_snoc (eps : list (Q * Q)) x :
  reports (eps ++ [x]) =
  reports eps ++
    (if (length (eps ++ [x]) mod 10 =? 0)%nat then
       [DebugLine (np_mean (slice_last 10 (eps ++ [x]).*1))
                  (np_mean (slice_last 10 (eps ++ [x]).*2))]
     else []).
Proof.
  unfold reports. rewrite length_app. simpl length.
  pose proof (Nat.div_mod_eq (length eps) 10) as Hn.
  pose proof (Nat.mod_upper_bound (length eps) 10) as Hn'.
  pose proof (Nat.div_mod_eq (length eps + 1) 10) as Hm.
  pose proof (Nat.mod_upper_bound (length eps + 1) 10) as Hm'.
  assert (map (report_at (eps ++ [x]).*1 (eps ++ [x]).*2) (seq 0 (length eps / 10))
          = map (report_at eps.*1 eps.*2) (seq 0 (length eps / 10))) as Hold.
  { apply map_ext_in. intros j Hj. apply in_seq in Hj.
    apply report_at_stable. lia. }
  destruct (_ =? 0)%nat eqn:Htest.
  - apply Nat.eqb_eq in Htest.
    replace ((length eps + 1) / 10)%nat with (S (length eps / 10)) by lia.
    rewrite seq_S, map_app, Hold, Nat.add_0_l. cbn [map]. f_equal.
    unfold report_at.
    rewrite !(window_last _ (length eps / 10))
      by (rewrite length_fmap, length_app; cbn [length]; lia).
    reflexivity.
  - apply Nat.eqb_neq in Htest.
    replace ((length eps + 1) / 10)%nat with (length eps / 10)%nat by lia.
    rewrite app_nil_r. exact Hold.
Qed.

(** The output of a returning run from a fresh tracker. *)
Lemma on_steps_output steps : forall bs s out,
  on_steps steps __init__ = (Return bs, s, out) -> out = reports (episodes steps).
Proof.
  induction steps as [|l steps IH] using rev_ind; intros bs s out Hrun.
  - injection Hrun as <- <- <-. reflexivity.
  - rewrite on_steps_app in Hrun.
    destruct (on_steps steps __init__) as [[[bs1|e] s1] o1] eqn:Hpre; [|discriminate].
    rewrite on_steps_singleton in Hrun.
    destruct (_on_step l s1) as [[[b|e] s2] o2] eqn:Hstep; [|discriminate].
    injection Hrun as <- <- <-. rewrite (IH _ _ _ eq_refl).
    destruct (on_steps_returns _ _ _ _ _ Hpre) as [Hr Hn]. simpl in Hr, Hn.
    unfold episodes. rewrite omap_app. fold (episodes steps). simpl.
    destruct (_on_step_returns _ _ _ _ _ Hstep)
      as [_ [(Ho & -> & ->)|(r & n & Ho & -> & ->)]]; rewrite Ho; simpl.
    + rewrite !app_nil_r. reflexivity.
    + rewrite reports_snoc, !fmap_app, Hr, Hn, length_app, length_app, !length_fmap.
      reflexivity.
Qed.

(** X5: the whole output of a run. A returning run from a fresh tracker
    prints one line per complete group of ten outcomes and nothing else: the
    [j]-th line carries the means of outcomes [10j-9 .. 10j], so the groups
    reported neither overlap nor skip an outcome, and [N] outcomes give
    [N / 10] lines (rounded down). *)
Theorem run_prints_one_line_per_ten_outcomes steps bs s out :
  on_steps steps __init__ = (Return bs, s, out) ->
  out = reports (episodes steps) /\
  length out = (length (episodes steps) / 10)%nat.
Proof.
  intros Hrun. rewrite (on_steps_output _ _ _ _ Hrun). split; [reflexivity|].
  unfold reports. rewrite length_map, length_seq. reflexivity.
Qed.

Lemma run_prints_one_line_per_ten_outcomes_witness :
  printed (on_steps (counting_episodes 25) __init__)
    = reports (episodes (counting_episodes 25)) /\
  length (printed (on_steps (counting_episodes 25) __init__))
    = (length (episodes (counting_episodes 25)) / 10)%nat.
Proof.
  apply (run_prints_one_line_per_ten_outcomes (counting_episodes 25)
           (replicate 25 true)
           (state_after (on_steps (counting_episodes 25) __init__))).
  vm_compute. reflexivity.
Defined.






Import Train.

Implicit Types (w : world) (m : model).

Lemma startup_trace w :
  raises w (gym_make UNITY_ENV_NAME UNITY_BUILD_PATH RENDER_MODE) = None ->
  raises w DummyVecEnv = None ->
  if path_exists w MODEL_PATH then
    loads (trace (startup w tt)) = [MODEL_PATH] /\
    constructions (trace (startup w tt)) = [] /\
    (forall m, exit_status (startup w tt) = Return m -> m = Loaded MODEL_PATH)
  else
    loads (trace (startup w tt)) = [] /\
    constructions (trace (startup w tt)) = [new_model_hyperparameters] /\
    (forall m, exit_status (startup w tt) = Return m -> m = Fresh new_model_hyperparameters).
Proof.
  intros Hmake Hvec. unfold startup, extern, bind, emit, Train.print. simpl.
  rewrite Hmake, Hvec. simpl.
  destruct (path_exists w MODEL_PATH); simpl.
  - destruct (raises w (PPO_load MODEL_PATH)); simpl;
      (split; [reflexivity|split; [reflexivity|]]); intros m [=]; congruence.
  - destruct (raises w (PPO new_model_hyperparameters)); simpl;
      (split; [reflexivity|split; [reflexivity|]]); intros m [=]; congruence.
Qed.

Lemma main_unfold w :
  main w tt =
    match startup w tt with
    | (Return m, _, tr0) =>
        match training w m tt with
        | (r, u, tr) => (r, u, tr0 ++ tr)
        end
    | (Raise e, u, tr0) => (Raise e, u, tr0)
    end.
Proof.
  unfold main, bind. destruct (startup w tt) as [[[m|e] []] tr0]; reflexivity.
Qed.

(** The training block makes no model-creating call and calls [save] once,
    whatever [learn] and [save] do; when [learn] returns or is interrupted,
    its call precedes the [save], and the block ends normally if [save]
    returns. *)
Lemma training_trace w m :
  let lrn := learn m total_timesteps true (Some RewardDebugCallback.__init__) in
  let sv := save m MODEL_PATH in
  exists before after,
    trace (training w m tt) = before ++ Called sv :: after /\
    saves before = [] /\ saves after = [] /\
    loads (trace (training w m tt)) = [] /\
    constructions (trace (training w m tt)) = [] /\
    (raises w lrn = None \/ raises w lrn = Some KeyboardInterrupt ->
     Called lrn ∈ before /\
     (raises w sv = None -> exit_status (training w m tt) = Return tt)).
Proof.
  intros lrn sv.
  unfold training, try_finally, try_except, extern, bind, emit, Train.print, ret, raise.
  simpl. fold lrn sv.
  destruct (raises w lrn) as [e|] eqn:Hl; [destruct e|]; simpl;
    destruct (raises w sv) as [e'|] eqn:Hs; simpl;
    unfold trace, exit_status; simpl;
    match goal with
    | |- exists _ _, ?a :: ?b :: ?c :: Called lrn :: Called sv :: ?aft = _ /\ _ =>
        exists [a; b; c; Called lrn], aft
    | |- exists _ _, ?a :: ?b :: ?c :: Called lrn :: ?d :: Called sv :: ?aft = _ /\ _ =>
        exists [a; b; c; Called lrn; d], aft
    end;
    (split; [reflexivity|]); (split; [reflexivity|]); (split; [reflexivity|]);
    (split; [reflexivity|]); (split; [reflexivity|]);
    (intros [?|?]; try discriminate);
    (split; [repeat (apply elem_of_cons; (left; reflexivity) || right)|]);
    intros; try reflexivity; discriminate.
Qed.

Lemma startup_saves w : saves (trace (startup w tt)) = [].
Proof.
  unfold startup, extern, bind, emit, Train.print, ret, raise. simpl.
  destruct (raises w (gym_make _ _ _)); [reflexivity|]. simpl.
  destruct (raises w DummyVecEnv); [reflexivity|]. simpl.
  destruct (path_exists w MODEL_PATH); simpl.
  - destruct (raises w (PPO_load _)); reflexivity.
  - destruct (raises w (PPO _)); reflexivity.
Qed.

Lemma saves_app tr1 tr2 : saves (tr1 ++ tr2) = saves tr1 ++ saves tr2.
Proof. apply omap_app. Qed.

Lemma saves_save m p tr : saves (Called (save m p) :: tr) = (m, p) :: saves tr.
Proof. reflexivity. Qed.

(** C6: when the startup has produced the model and the training call
    returns normally or is interrupted by the operator (KeyboardInterrupt),
    the run calls [save] exactly once, on that model and the fixed path,
    after the [learn] call; and if that [save] returns, the script ends
    normally, the interrupt having been caught. *)
Theorem save_once_on_completion_and_interrupt w m tr0 :
  startup w tt = (Return m, tt, tr0) ->
  raises w (learn m total_timesteps true (Some RewardDebugCallback.__init__)) = None \/
  raises w (learn m total_timesteps true (Some RewardDebugCallback.__init__))
    = Some KeyboardInterrupt ->
  saves (trace (main w tt)) = [(m, MODEL_PATH)] /\
  (exists before after,
     trace (main w tt) = before ++ Called (save m MODEL_PATH) :: after /\
     Called (learn m total_timesteps true (Some RewardDebugCallback.__init__)) ∈ before /\
     saves before = [] /\ saves after = []) /\
  (raises w (save m MODEL_PATH) = None -> exit_status (main w tt) = Return tt).
Proof.
  intros Hstart Hlearn. rewrite main_unfold, Hstart.
  pose proof (startup_saves w) as Hs0. rewrite Hstart in Hs0. unfold trace in Hs0.
  destruct (training_trace w m) as (before & after & Htr & Hb & Ha & _ & _ & Hpath).
  destruct (Hpath Hlearn) as [Hin Hexit].
  destruct (training w m tt) as [[r u] tr]. unfold trace, exit_status in *. simpl in *.
  subst tr. split; [|split].
  - rewrite !saves_app, saves_save, Hs0, Hb, Ha. reflexivity.
  - exists (tr0 ++ before), after. rewrite <- app_assoc.
    split; [reflexivity|]. split; [apply elem_of_app; right; exact Hin|].
    split; [|assumption]. rewrite saves_app, Hs0, Hb. reflexivity.
  - exact Hexit.
Qed.

Lemma save_once_on_completion_and_interrupt_witness :
  saves (trace (main interrupted_world tt)) = [(Loaded MODEL_PATH, MODEL_PATH)] /\
  (exists before after,
     trace (main interrupted_world tt)
       = before ++ Called (save (Loaded MODEL_PATH) MODEL_PATH) :: after /\
     Called (learn (Loaded MODEL_PATH) total_timesteps true
               (Some RewardDebugCallback.__init__)) ∈ before /\
     saves before = [] /\ saves after = []) /\
  (raises interrupted_world (save (Loaded MODEL_PATH) MODEL_PATH) = None ->
   exit_status (main interrupted_world tt) = Return tt).
Proof.
  apply (save_once_on_completion_and_interrupt interrupted_world (Loaded MODEL_PATH)
           (trace (startup interrupted_world tt))).
  - vm_compute. reflexivity.
  - right. reflexivity.
Defined.

(** The two paths of C6, run: one save, a normal end. *)
Example calm_run_saves_once :
  saves (trace (main calm_world tt)) = [(Loaded MODEL_PATH, MODEL_PATH)] /\
  exit_status (main calm_world tt) = Return tt.
Proof. split; vm_compute; reflexivity. Qed.

Example interrupted_run_saves_once :
  saves (trace (main interrupted_world tt)) = [(Loaded MODEL_PATH, MODEL_PATH)] /\
  exit_status (main interrupted_world tt) = Return tt.
Proof. split; vm_compute; reflexivity. Qed.

(** C7: once the environment is built, the startup is decided by
    [os.path.exists(MODEL_PATH)] alone. If the file exists the run calls
    [PPO.load] on that path and never the [PPO] constructor; if it does not,
    the run constructs one model, with the fixed hyperparameters, and never
    calls [PPO.load]. *)
Theorem startup_selects_by_existence w :
  raises w (gym_make UNITY_ENV_NAME UNITY_BUILD_PATH RENDER_MODE) = None ->
  raises w DummyVecEnv = None ->
  (path_exists w MODEL_PATH = true ->
   loads (trace (main w tt)) = [MODEL_PATH] /\
   constructions (trace (main w tt)) = []) /\
  (path_exists w MODEL_PATH = false ->
   loads (trace (main w tt)) = [] /\
   constructions (trace (main w tt)) = [new_model_hyperparameters]).
Proof.
  intros Hmake Hvec. pose proof (startup_trace w Hmake Hvec) as Hstart.
  assert (loads (trace (main w tt)) = loads (trace (startup w tt)) /\
          constructions (trace (main w tt)) = constructions (trace (startup w tt)))
    as [-> ->].
  { rewrite main_unfold.
    destruct (startup w tt) as [[[m|e] u] tr0]; [|split; reflexivity].
    destruct (training_trace w m) as (_ & _ & _ & _ & _ & Hl & Hc & _).
    destruct (training w m tt) as [[r u'] tr]. unfold trace in *. simpl in *.
    unfold loads, constructions in *. rewrite !omap_app, Hl, Hc, !app_nil_r. auto. }
  split; intros Hex; rewrite Hex in Hstart; destruct Hstart as (Hl & Hc & _); auto.
Qed.

Lemma startup_selects_by_existence_witness :
  (path_exists calm_world MODEL_PATH = true ->
   loads (trace (main calm_world tt)) = [MODEL_PATH] /\
   constructions (trace (main calm_world tt)) = []) /\
  (path_exists calm_world MODEL_PATH = false ->
   loads (trace (main calm_world tt)) = [] /\
   constructions (trace (main calm_world tt)) = [new_model_hyperparameters]).
Proof.
  apply startup_selects_by_existence; reflexivity.
Defined.

(** ** Further properties of the driver *)

(** What the training block does, in full: the status it ends with and the
    events it leaves. *)
Lemma training_run w m :
  training w m tt =
    (match raises w (save m MODEL_PATH) with
     | Some e' => Raise e'
     | None =>
         match raises w (learn m total_timesteps true (Some RewardDebugCallback.__init__)) with
         | Some e => if is_KeyboardInterrupt e then Return tt else Raise e
         | None => Return tt
         end
     end,
     tt,
     banner ++
     Called (learn m total_timesteps true (Some RewardDebugCallback.__init__)) ::
     match raises w (learn m total_timesteps true (Some RewardDebugCallback.__init__)) with
     | Some KeyboardInterrupt => [Printed interrupt_notice]
     | _ => []
     end ++
     Called (save m MODEL_PATH) ::
     match raises w (save m MODEL_PATH) with
     | Some _ => []
     | None => [Printed saved_message]
     end).
Proof.
  unfold training, try_finally, try_except, extern, bind, emit, Train.print, ret, raise.
  simpl.
  destruct (raises w (learn _ _ _ _)) as [[]|]; simpl;
    destruct (raises w (save _ _)); reflexivity.
Qed.

(** The startup either returns [model_for w] or raises; it neither trains
    nor saves, and prints at most its own two messages. *)
Lemma startup_run w :
  learns (trace (startup w tt)) = [] /\
  (forall m, exit_status (startup w tt) = Return m -> m = model_for w) /\
  (forall text, Printed text ∈ trace (startup w tt) ->
     text = "Загружаем существующую модель из " +:+ MODEL_PATH \/
     text = "Создаём новую PPO модель").
Proof.
  unfold startup, model_for, extern, bind, emit, Train.print, ret, raise,
    trace, exit_status. simpl.
  destruct (raises w (gym_make _ _ _)); simpl;
    [|destruct (raises w DummyVecEnv); simpl;
      [|destruct (path_exists w MODEL_PATH); simpl;
        [destruct (raises w (PPO_load _))|destruct (raises w (PPO _))]; simpl]];
    (split; [reflexivity|split; [intros m [=]; congruence|]]);
    intros text Hin; repeat (apply elem_of_cons in Hin as [[=]|Hin]); auto;
    apply elem_of_nil in Hin; destruct Hin.
Qed.

Lemma learns_app tr1 tr2 : learns (tr1 ++ tr2) = learns tr1 ++ learns tr2.
Proof. apply omap_app. Qed.

Lemma startup_returned w m tr0 :
  startup w tt = (Return m, tt, tr0) ->
  saves tr0 = [] /\ learns tr0 = [] /\ m = model_for w.
Proof.
  intros Hst. pose proof (startup_saves w) as Hs.
  destruct (startup_run w) as (Hl & Hm & _).
  rewrite Hst in Hs, Hl, Hm. unfold trace, exit_status in *. simpl in *. auto.
Qed.

(** X7: the save runs on every exit of the training call. Once the startup
    has produced the model, the run calls [save] exactly once, on that model
    and [MODEL_PATH], whether [learn] returns, is interrupted or raises any
    other exception. If [save] raises, the script ends with that exception;
    otherwise it ends normally after a return or an interrupt of [learn],
    and with the exception of [learn] in every other case. *)
Theorem save_runs_on_every_exit_of_learn w m tr0 :
  startup w tt = (Return m, tt, tr0) ->
  saves (trace (main w tt)) = [(m, MODEL_PATH)] /\
  exit_status (main w tt) =
    match raises w (save m MODEL_PATH) with
    | Some e' => Raise e'
    | None =>
        match raises w (learn m total_timesteps true (Some RewardDebugCallback.__init__)) with
        | Some e => if is_KeyboardInterrupt e then Return tt else Raise e
        | None => Return tt
        end
    end.
Proof.
  intros Hst. destruct (startup_returned _ _ _ Hst) as (Hs0 & _ & _).
  rewrite main_unfold, Hst, training_run. unfold trace, exit_status. simpl.
  split; [|reflexivity].
  rewrite !saves_app, Hs0. simpl.
  destruct (raises w (learn _ _ _ _)) as [[]|]; simpl;
    destruct (raises w (save _ _)); reflexivity.
Qed.

Lemma save_runs_on_every_exit_of_learn_witness :
  saves (trace (main crashing_world tt))
    = [(Fresh new_model_hyperparameters, MODEL_PATH)] /\
  exit_status (main crashing_world tt) = Raise (KeyError "r").
Proof.
  apply (save_runs_on_every_exit_of_learn crashing_world
           (Fresh new_model_hyperparameters)
           (trace (startup crashing_world tt))).
  vm_compute. reflexivity.
Defined.

(** X8: a failure before training saves nothing. If the startup raises
    (building the environment, loading or constructing the model), the
    script ends with that exception right there: no [learn] call, no [save]
    call, nothing after the startup's own events. *)
Theorem startup_failure_trains_and_saves_nothing w (err : exn) :
  exit_status (startup w tt) = Raise err ->
  exit_status (main w tt) = Raise err /\
  trace (main w tt) = trace (startup w tt) /\
  learns (trace (main w tt)) = [] /\
  saves (trace (main w tt)) = [].
Proof.
  intros Hst. pose proof (startup_saves w) as Hs.
  destruct (startup_run w) as (Hl & _ & _).
  rewrite main_unfold. unfold trace, exit_status in *.
  destruct (startup w tt) as [[[m|e0] u] tr0]; [discriminate|].
  simpl in Hst. injection Hst as ->.
  split; [reflexivity|]. split; [reflexivity|]. split; [exact Hl|exact Hs].
Qed.

Lemma startup_failure_trains_and_saves_nothing_witness :
  exit_status (main no_unity_world tt) = Raise (Exception "connection refused") /\
  trace (main no_unity_world tt) = trace (startup no_unity_world tt) /\
  learns (trace (main no_unity_world tt)) = [] /\
  saves (trace (main no_unity_world tt)) = [].
Proof.
  apply startup_failure_trains_and_saves_nothing. vm_compute. reflexivity.
Defined.

(** X10: training is started once, on the model that is then saved. Once the
    startup has produced the model, the run makes exactly one [learn] call,
    on that model, for [total_timesteps] steps, with the progress bar and a
    fresh statistics tracker as callback, and the one model it saves is the
    same model. *)
Theorem trains_once_the_model_it_saves w m tr0 :
  startup w tt = (Return m, tt, tr0) ->
  learns (trace (main w tt))
    = [(m, total_timesteps, true, Some RewardDebugCallback.__init__)] /\
  (saves (trace (main w tt))).*1 = [m].
Proof.
  intros Hst. destruct (startup_returned _ _ _ Hst) as (Hs0 & Hl0 & _).
  rewrite main_unfold, Hst, training_run. unfold trace. simpl.
  rewrite !learns_app, !saves_app, Hs0, Hl0. simpl.
  destruct (raises w (learn _ _ _ _)) as [[]|]; simpl;
    destruct (raises w (save _ _)); split; reflexivity.
Qed.

Lemma trains_once_the_model_it_saves_witness :
  learns (trace (main interrupted_world tt))
    = [(Loaded MODEL_PATH, total_timesteps, true, Some RewardDebugCallback.__init__)] /\
  (saves (trace (main interrupted_world tt))).*1 = [Loaded MODEL_PATH].
Proof.
  apply (trains_once_the_model_it_saves interrupted_world (Loaded MODEL_PATH)
           (trace (startup interrupted_world tt))).
  vm_compute. reflexivity.
Defined.

(** X11: in every world the script saves at most once, and only the model
    the startup selected, to [MODEL_PATH]: the model loaded from that very
    path when the file existed, the freshly constructed one otherwise. *)
Theorem saves_only_the_selected_model w :
  saves (trace (main w tt)) = [] \/
  saves (trace (main w tt)) = [(model_for w, MODEL_PATH)].
Proof.
  destruct (startup w tt) as [[[m|e] []] tr0] eqn:Hst.
  - right. destruct (startup_returned _ _ _ Hst) as (Hs0 & _ & ->).
    rewrite main_unfold, Hst, training_run. unfold trace. simpl.
    rewrite !saves_app, Hs0. simpl.
    destruct (raises w (learn _ _ _ _)) as [[]|]; simpl;
      destruct (raises w (save _ _)); reflexivity.
  - left. pose proof (startup_saves w) as Hs.
    rewrite main_unfold, Hst. rewrite Hst in Hs. exact Hs.
Qed.

Lemma startup_prints_neither_message w :
  (Printed saved_message ∉ trace (startup w tt)) /\
  (Printed interrupt_notice ∉ trace (startup w tt)).
Proof.
  destruct (startup_run w) as (_ & _ & Hpr).
  split; intros Hin; apply Hpr in Hin as [Hin|Hin]; vm_compute in Hin; discriminate.
Qed.

Lemma banner_prints_neither_message :
  (Printed saved_message ∉ banner) /\ (Printed interrupt_notice ∉ banner).
Proof.
  split; intros Hin; unfold banner in Hin;
    repeat (apply elem_of_cons in Hin as [Hin|Hin];
            [vm_compute in Hin; discriminate|]);
    apply elem_of_nil in Hin; exact Hin.
Qed.

(** X9: the two closing messages tell what happened. The "model saved"
    message is printed exactly when the [save] call was made and returned,
    and the interruption notice exactly when the [learn] call was made and
    raised KeyboardInterrupt. In particular a failed save is never
    announced as done. *)
Theorem closing_messages_tell_what_happened w :
  (Printed saved_message ∈ trace (main w tt) <->
   exists m, exit_status (startup w tt) = Return m /\
     raises w (save m MODEL_PATH) = None) /\
  (Printed interrupt_notice ∈ trace (main w tt) <->
   exists m, exit_status (startup w tt) = Return m /\
     raises w (learn m total_timesteps true (Some RewardDebugCallback.__init__))
       = Some KeyboardInterrupt).
Proof.
  destruct (startup_prints_neither_message w) as [Hs0 Hn0].
  destruct banner_prints_neither_message as [Hsb Hnb].
  rewrite main_unfold. unfold trace, exit_status in *.
  destruct (startup w tt) as [[[m|err] []] tr0]; simpl in *.
  - rewrite training_run. set (bn := banner) in *. clearbody bn. simpl.
    split; rewrite elem_of_app, (elem_of_app bn), elem_of_cons, elem_of_app, elem_of_cons.
    + split.
      * intros [?|[?|[[=]|[Hin|[[=]|Hin]]]]]; try contradiction.
        { destruct (raises w (learn _ _ _ _)) as [[]|];
            repeat (apply elem_of_cons in Hin as [Hin|Hin];
                    [vm_compute in Hin; discriminate|]);
            apply elem_of_nil in Hin; destruct Hin. }
        exists m. split; [reflexivity|].
        destruct (raises w (save _ _)); [apply elem_of_nil in Hin; destruct Hin|].
        reflexivity.
      * intros (m' & [= <-] & ->). do 5 right. apply elem_of_cons. left. reflexivity.
    + split.
      * intros [?|[?|[[=]|[Hin|[[=]|Hin]]]]]; try contradiction.
        { exists m. split; [reflexivity|].
          destruct (raises w (learn _ _ _ _)) as [[]|]; try reflexivity;
            apply elem_of_nil in Hin; destruct Hin. }
        destruct (raises w (save _ _));
          repeat (apply elem_of_cons in Hin as [Hin|Hin];
                  [vm_compute in Hin; discriminate|]);
          apply elem_of_nil in Hin; destruct Hin.
      * intros (m' & [= <-] & ->). do 3 right. left. apply elem_of_cons. left. reflexivity.
  - split; split; try contradiction; intros (m & [=] & _).
Qed.

(** X12: a model file that exists but cannot be loaded is left alone. When
    the file exists and [PPO.load] raises, the script ends with that
    exception: it does not fall back to a fresh model, does not train and
    does not save, so the file is not overwritten. *)
Theorem unloadable_model_is_not_replaced w (err : exn) :
  raises w (gym_make UNITY_ENV_NAME UNITY_BUILD_PATH RENDER_MODE) = None ->
  raises w DummyVecEnv = None ->
  path_exists w MODEL_PATH = true ->
  raises w (PPO_load MODEL_PATH) = Some err ->
  exit_status (main w tt) = Raise err /\
  constructions (trace (main w tt)) = [] /\
  learns (trace (main w tt)) = [] /\
  saves (trace (main w tt)) = [].
Proof.
  intros Hmake Hvec Hex Hload. rewrite main_unfold.
  unfold startup, extern, bind, emit, Train.print, ret, raise. simpl.
  rewrite Hmake, Hvec. simpl. rewrite Hex. simpl. rewrite Hload. simpl.
  repeat split; reflexivity.
Qed.

Lemma unloadable_model_is_not_replaced_witness :
  exit_status (main corrupt_file_world tt) = Raise (Exception "bad zip file") /\
  constructions (trace (main corrupt_file_world tt)) = [] /\
  learns (trace (main corrupt_file_world tt)) = [] /\
  saves (trace (main corrupt_file_world tt)) = [].
Proof.
  apply unloadable_model_is_not_replaced; reflexivity.
Defined.
